(** * money-master: the mortgage calculation module

    A shallow embedding of [src/lib/functions/mortgage.ts]
    ([getMonthlyMortgage], [getTrueCostsOfHome], [getPropertyTaxByState])
    and the properties of its cost breakdown.

    The TypeScript code computes on JavaScript numbers, that is IEEE 754
    binary64 values.  The three functions are straight-line arithmetic, so
    they are written once over an interface of number operations
    ([NumberOps]) and then read in two number systems:

    - [Binary64]: binary64 arithmetic, round to nearest even, as given by
      the standard library's [SpecFloat] (the specification the primitive
      floats are stated against).  This is what the program computes.
    - [Exact]: the real numbers, the arithmetic in which the formulas of
      the documentation are written.

    [parseFloat] and [Math.pow] are built-ins of the JavaScript runtime:
    they are fields of the interface, and the binary64 reading takes them
    as arguments.  A reference implementation of both is given to evaluate
    the code on concrete inputs. *)

From Stdlib Require Import ZArith NArith List String Ascii Bool.
From Stdlib Require Import Floats.SpecFloat.
From Stdlib Require Import Reals Lra.
From Stdlib Require Import Permutation.
Import ListNotations.

Local Open Scope string_scope.
Local Open Scope Z_scope.

(** ** The number operations the module uses *)

Class NumberOps (num : Type) : Type := {
  add : num -> num -> num;          (* a + b *)
  sub : num -> num -> num;          (* a - b *)
  mul : num -> num -> num;          (* a * b *)
  div : num -> num -> num;          (* a / b *)
  ofZ : Z -> num;                   (* an integer literal: 1, 12, 100 *)
  Math_pow : num -> num -> num;     (* Math.pow(base, exponent) *)
  parseFloat : string -> num        (* parseFloat(text) *)
}.

(** ** Binary64 *)

Module B64.

Definition prec : Z := 53.
Definition emax : Z := 1024.

Definition float : Type := spec_float.

Definition NaN : float := S754_nan.
Definition Infinity : float := S754_infinity false.

Definition fadd : float -> float -> float := SFadd prec emax.
Definition fsub : float -> float -> float := SFsub prec emax.
Definition fmul : float -> float -> float := SFmul prec emax.
Definition fdiv : float -> float -> float := SFdiv prec emax.

(** The double nearest to an integer (exact below 2^53). *)
Definition of_Z (z : Z) : float := binary_normalize prec emax z 0 false.

(** The double nearest to [m / d], for integers [m] and [d > 0]: one
    rounding of the exact quotient. *)
Definition of_ratio (neg : bool) (m d : positive) : float :=
  fdiv (S754_finite neg m 0) (S754_finite false d 0).

(** JavaScript's [==] and [<=] on numbers. *)
Definition eqb : float -> float -> bool := SFeqb.
Definition leb : float -> float -> bool := SFleb.
Definition ltb : float -> float -> bool := SFltb.

Definition is_finite (x : float) : bool :=
  match x with
  | S754_zero _ | S754_finite _ _ _ => true
  | S754_infinity _ | S754_nan => false
  end.

Definition is_zero (x : float) : bool :=
  match x with
  | S754_zero _ => true
  | _ => false
  end.

End B64.

(** ** Decimal literals: the text a rate field holds

    [parseFloat] skips leading white space, reads the longest prefix that
    is a decimal literal (sign, digits, fraction, exponent, or
    [Infinity]) and ignores what follows; with no such prefix the result
    is NaN.  The reading of the text is shared by the two number systems;
    each then takes the value of the literal in its own numbers. *)

Module StrDecimal.

Inductive literal : Type :=
| NotANumber
| Inf (neg : bool)
| Dec (neg : bool) (m : N) (e10 : Z).   (* (-1)^neg * m * 10^e10 *)

Definition is_white (c : ascii) : bool :=
  let n := N_of_ascii c in
  (N.eqb n 32 || (N.leb 9 n && N.leb n 13))%bool.

Definition digit (c : ascii) : option N :=
  let n := N_of_ascii c in
  if (N.leb 48 n && N.leb n 57)%bool then Some (n - 48)%N else None.

Fixpoint skip_white (s : string) : string :=
  match s with
  | String c s' => if is_white c then skip_white s' else s
  | EmptyString => s
  end.

(** The longest run of digits at the head of [s]: the number read so
    far, how many digits were read, and the rest of the text. *)
Fixpoint digits (acc : N) (count : Z) (s : string) : N * Z * string :=
  match s with
  | String c s' =>
      match digit c with
      | Some d => digits (10 * acc + d)%N (count + 1) s'
      | None => (acc, count, s)
      end
  | EmptyString => (acc, count, s)
  end.

Definition sign (s : string) : bool * string :=
  match s with
  | String "-"%char s' => (true, s')
  | String "+"%char s' => (false, s')
  | _ => (false, s)
  end.

(** An exponent part counts only if it has a digit. *)
Definition exponent (s : string) : Z :=
  match s with
  | String c s' =>
      if (Ascii.eqb c "e" || Ascii.eqb c "E")%bool then
        let (neg, s'') := sign s' in
        let '(v, n, _) := digits 0 0 s'' in
        if n =? 0 then 0 else cond_Zopp neg (Z.of_N v)
      else 0
  | EmptyString => 0
  end.

Definition parse (text : string) : literal :=
  let (neg, s1) := sign (skip_white text) in
  if prefix "Infinity" s1 then Inf neg else
  let '(ip, ni, s2) := digits 0 0 s1 in
  let '(m, nf, s3) :=
    match s2 with
    | String "."%char s' => digits ip 0 s'
    | _ => (ip, 0, s2)
    end in
  if ni + nf =? 0 then NotANumber else Dec neg m (exponent s3 - nf).

End StrDecimal.

(** ** Reference built-ins for binary64 *)

Module Ref.
Import B64 StrDecimal.

(** The double nearest to the value of a literal: an exact integer
    rounded once, or an exact quotient rounded once. *)
Definition of_literal (l : literal) : float :=
  match l with
  | NotANumber => NaN
  | Inf neg => S754_infinity neg
  | Dec neg N0 _ => S754_zero neg
  | Dec neg (Npos m) e10 =>
      if 0 <=? e10
      then binary_normalize prec emax
             (cond_Zopp neg (Zpos m * 10 ^ e10)) 0 false
      else of_ratio neg m (Z.to_pos (10 ^ (- e10)))
  end.

Definition parseFloat (text : string) : float := of_literal (parse text).

(** The integer a double is equal to, when it is one. *)
Definition to_Z (x : float) : option Z :=
  match x with
  | S754_zero _ => Some 0
  | S754_finite s m e =>
      if 0 <=? e then Some (cond_Zopp s (Zpos m * 2 ^ e))
      else if Zpos m mod 2 ^ (- e) =? 0
           then Some (cond_Zopp s (Zpos m / 2 ^ (- e)))
           else None
  | _ => None
  end.

Definition negative (x : float) : bool :=
  match x with
  | S754_zero s | S754_infinity s | S754_finite s _ _ => s
  | S754_nan => false
  end.

(** [b] raised to a whole power [k >= 1] by repeated squaring, every
    product rounded to binary64. *)
Fixpoint pow_pos (b : float) (k : positive) : float :=
  match k with
  | xH => b
  | xO k' => let h := pow_pos b k' in fmul h h
  | xI k' => let h := pow_pos b k' in fmul b (fmul h h)
  end.

(** [Math.pow] as ECMAScript's Number::exponentiate lays it out.  The
    special cases are the standard's.  Where the standard leaves the
    result to the implementation, as an approximation of the mathematical
    power, this reference takes a whole exponent by [pow_pos] (and its
    reciprocal for a negative one): exact when the base is 1, and one of
    the approximations an engine may return otherwise; the examples read
    it to the cent only.  A positive base with a fractional exponent is
    not covered by this reference and is sent to NaN. *)
Definition pow (b y : float) : float :=
  let odd := match to_Z y with Some k => Z.odd k | None => false end in
  match y with
  | S754_nan => NaN
  | S754_zero _ => of_Z 1
  | _ =>
      match b with
      | S754_nan => NaN
      | S754_infinity sb =>
          if negative y then S754_zero (sb && odd)
          else S754_infinity (sb && odd)
      | S754_zero sb =>
          if negative y then S754_infinity (sb && odd)
          else S754_zero (sb && odd)
      | S754_finite sb m e =>
          match y with
          | S754_infinity sy =>
              match SFcompare (SFabs b) (of_Z 1) with
              | Some Gt => if sy then S754_zero false else Infinity
              | Some Lt => if sy then Infinity else S754_zero false
              | _ => NaN
              end
          | _ =>
              match to_Z y with
              | Some (Zpos k) => pow_pos b k
              | Some (Zneg k) => fdiv (of_Z 1) (pow_pos b k)
              | _ => NaN
              end
          end
      end
  end.

End Ref.

(** ** The calculation module, [src/lib/functions/mortgage.ts] *)

(** [type Inputs]: the principal and the term are numbers, the four rates
    are the text of their form fields. *)
Record Inputs (num : Type) : Type := {
  principal : num;
  interestRate : string;
  loanTermYears : num;
  pmiRate : string;
  insuranceRate : string;
  propertyTaxRate : string
}.
Arguments principal {num} _.
Arguments interestRate {num} _.
Arguments loanTermYears {num} _.
Arguments pmiRate {num} _.
Arguments insuranceRate {num} _.
Arguments propertyTaxRate {num} _.

(** [Pick<Inputs, "principal" | "interestRate" | "loanTermYears">], the
    argument of [getMonthlyMortgage]. *)
Module Loan.
Record Inputs (num : Type) : Type := {
  principal : num;
  interestRate : string;
  loanTermYears : num
}.
Arguments principal {num} _.
Arguments interestRate {num} _.
Arguments loanTermYears {num} _.
End Loan.

(** The object [getMonthlyMortgage] returns. *)
Record Payment (num : Type) : Type := { monthlyPayment : num }.
Arguments monthlyPayment {num} _.

(** The object [getTrueCostsOfHome] returns. *)
Record CostBreakdown (num : Type) : Type := {
  mortgagePayment : num;
  totalInterest : num;
  totalPmi : num;
  totalInsurance : num;
  totalMonthlyPayment : num;
  totalCost : num;
  yearlyPropertyTax : num;
  monthlyPropertyTax : num;
  monthlyInsurance : num;
  monthlyPmi : num;
  totalPropertyTax : num
}.
Arguments mortgagePayment {num} _.
Arguments totalInterest {num} _.
Arguments totalPmi {num} _.
Arguments totalInsurance {num} _.
Arguments totalMonthlyPayment {num} _.
Arguments totalCost {num} _.
Arguments yearlyPropertyTax {num} _.
Arguments monthlyPropertyTax {num} _.
Arguments monthlyInsurance {num} _.
Arguments monthlyPmi {num} _.
Arguments totalPropertyTax {num} _.

(** [Number(v)] on a value that is a number already returns it. *)
Definition Number {num : Type} (v : num) : num := v.

Section GetMonthlyMortgage.
Context {num : Type} `{NumberOps num}.

(** [export const getMonthlyMortgage = (inputs) => ...] *)
Definition getMonthlyMortgage (inputs : Loan.Inputs num) : Payment num :=
  let principal := Loan.principal inputs in
  let interestRate := Loan.interestRate inputs in
  let loanTermYears := Loan.loanTermYears inputs in
  let monthlyRate := div (div (parseFloat interestRate) (ofZ 100)) (ofZ 12) in
  let numberOfPayments := mul loanTermYears (ofZ 12) in
  let x := Math_pow (add (ofZ 1) monthlyRate) numberOfPayments in
  let monthlyPayment := div (mul (mul principal x) monthlyRate) (sub x (ofZ 1)) in
  {| monthlyPayment := monthlyPayment |}.

End GetMonthlyMortgage.

(** The constants of the body of [getTrueCostsOfHome], one definition per
    [const], in the order of the source.  Several of them are not part of
    the returned object ([totalPrincipalAndInterest],
    [monthlyMaintenanceRate], ...). *)
Module TrueCosts.
Section Body.
Context {num : Type} `{NumberOps num}.
Variable inputs : Inputs num.

Definition loanTermYearsNum : num := Number (loanTermYears inputs).
Definition pmiRateNum : num := parseFloat (pmiRate inputs).
Definition insuranceRateNum : num := parseFloat (insuranceRate inputs).
Definition propertyTaxRateNum : num := parseFloat (propertyTaxRate inputs).

Definition monthlyPmi : num :=
  div (div (mul (principal inputs) pmiRateNum) (ofZ 100)) (ofZ 12).

Definition annualInsurance : num :=
  mul (principal inputs) (div insuranceRateNum (ofZ 100)).
Definition monthlyInsurance : num := div annualInsurance (ofZ 12).

Definition numberOfPayments : num := mul (loanTermYears inputs) (ofZ 12).

Definition monthlyPayment : num :=
  match getMonthlyMortgage
          {| Loan.principal := principal inputs;
             Loan.interestRate := interestRate inputs;
             Loan.loanTermYears := loanTermYears inputs |}
  with Build_Payment _ monthlyPayment => monthlyPayment
  end.

Definition totalPrincipalAndInterest : num := mul monthlyPayment numberOfPayments.
Definition totalPmi : num := mul monthlyPmi numberOfPayments.
Definition totalInsurance : num := mul monthlyInsurance numberOfPayments.

Definition totalInterest : num := sub totalPrincipalAndInterest (principal inputs).

Definition yearlyPropertyTax : num :=
  div (mul (principal inputs) propertyTaxRateNum) (ofZ 100).
Definition monthlyPropertyTax : num := div yearlyPropertyTax (ofZ 12).
Definition totalPropertyTax : num := mul yearlyPropertyTax loanTermYearsNum.

Definition annualMaintenanceRate : num :=
  mul (principal inputs) (parseFloat "3.00").
Definition monthlyMaintenanceRate : num := div annualMaintenanceRate (ofZ 12).

Definition totalMonthlyPayment : num :=
  add (add (add (add monthlyPayment monthlyPmi) monthlyInsurance)
         monthlyPropertyTax)
      monthlyMaintenanceRate.

Definition totalCost : num :=
  add (add (add totalPrincipalAndInterest totalPmi) totalInsurance)
      totalPropertyTax.

End Body.
End TrueCosts.

(** [export function getTrueCostsOfHome(inputs: Inputs)] *)
Definition getTrueCostsOfHome {num : Type} `{NumberOps num}
    (inputs : Inputs num) : CostBreakdown num :=
  {| mortgagePayment := TrueCosts.monthlyPayment inputs;
     totalInterest := TrueCosts.totalInterest inputs;
     totalPmi := TrueCosts.totalPmi inputs;
     totalInsurance := TrueCosts.totalInsurance inputs;
     totalMonthlyPayment := TrueCosts.totalMonthlyPayment inputs;
     totalCost := TrueCosts.totalCost inputs;
     yearlyPropertyTax := TrueCosts.yearlyPropertyTax inputs;
     monthlyPropertyTax := TrueCosts.monthlyPropertyTax inputs;
     monthlyInsurance := TrueCosts.monthlyInsurance inputs;
     monthlyPmi := TrueCosts.monthlyPmi inputs;
     totalPropertyTax := TrueCosts.totalPropertyTax inputs |}.

(** ** The property-tax table and its lookup *)

(** A row of [property-taxes/2023/rates.json].  The caller passes the
    looked-up rate to [parseFloat], so the rate is text. *)
Record TaxRow : Type := {
  State : string;
  Effective_Tax_Rate_2023 : string     (* "Effective Tax Rate (2023)" *)
}.

(** A call either returns or throws [new Error(message)]. *)
Inductive outcome (A : Type) : Type :=
| Returns (value : A)
| Throws (message : string).
Arguments Returns {A} _.
Arguments Throws {A} _.

Section PropertyTax.
(** The imported table: the data file is not part of the sources at
    hand, so the lookup is read for an arbitrary table. *)
Variable propertyTaxRates : list TaxRow.

(** [export function getPropertyTaxByState(state: string)] *)
Definition getPropertyTaxByState (state : string) : outcome string :=
  let rate :=
    option_map Effective_Tax_Rate_2023
      (find (fun x => String.eqb (State x) state) propertyTaxRates) in
  match rate with
  | None => Throws "Could not find state? Huh??"
  | Some rate => Returns rate
  end.

End PropertyTax.

(** ** The two number systems *)

(** Binary64, for given implementations of the two built-ins. *)
Definition Binary64 (parseFloat : string -> B64.float)
    (Math_pow : B64.float -> B64.float -> B64.float) : NumberOps B64.float :=
  {| add := B64.fadd; sub := B64.fsub; mul := B64.fmul; div := B64.fdiv;
     ofZ := B64.of_Z; Math_pow := Math_pow; parseFloat := parseFloat |}.

(** Binary64 with the reference built-ins: the system the examples are
    evaluated in. *)
Definition JS : NumberOps B64.float := Binary64 Ref.parseFloat Ref.pow.

(** Reading a rate field as a real number. *)
Module Real.
Import StrDecimal.

(** The value of a literal as a real; NaN and the infinities have no
    counterpart and are not used in this reading. *)
Definition of_literal (l : literal) : R :=
  match l with
  | NotANumber | Inf _ => 0%R
  | Dec neg m e10 =>
      if 0 <=? e10
      then IZR (cond_Zopp neg (Z.of_N m * 10 ^ e10))
      else (IZR (cond_Zopp neg (Z.of_N m)) / IZR (10 ^ (- e10)))%R
  end.

Definition parseFloat (text : string) : R := of_literal (parse text).
End Real.

(** The real numbers: [Math.pow] is the real power [exp (y * ln b)],
    which is the mathematical power for a positive base (the base of the
    annuity formula is [1 + i > 0]); division is the field's. *)
Definition Exact (parseFloat : string -> R) : NumberOps R :=
  {| add := Rplus; sub := Rminus; mul := Rmult; div := Rdiv;
     ofZ := IZR; Math_pow := Rpower; parseFloat := parseFloat |}.

(** ** Auxiliary definitions for the statements *)

(** The argument [getTrueCostsOfHome] passes to [getMonthlyMortgage]. *)
Definition loan_of {num : Type} (inputs : Inputs num) : Loan.Inputs num :=
  {| Loan.principal := principal inputs;
     Loan.interestRate := interestRate inputs;
     Loan.loanTermYears := loanTermYears inputs |}.

(** The table has a row for [state]. *)
Definition has_row (table : list TaxRow) (state : string) : Prop :=
  exists row, In row table /\ State row = state.

(** [row] is the first row for [state]: the one [Array.prototype.find]
    stops at. *)
Definition first_row (table : list TaxRow) (state : string) (row : TaxRow)
    : Prop :=
  exists before after,
    table = (before ++ row :: after)%list
    /\ State row = state
    /\ forall r, In r before -> State r <> state.

(** ** Examples *)

(** The scenario of the documentation, which is also the form's default:
    300000 at 4.5% over 30 years, PMI 0.5%, insurance and property tax
    0.35%. *)
Definition scenario : Inputs B64.float :=
  {| principal := B64.of_Z 300000; interestRate := "4.5";
     loanTermYears := B64.of_Z 30; pmiRate := "0.5";
     insuranceRate := "0.35"; propertyTaxRate := "0.35" |}.

(** A loan of 300000 over 30 years at the rate written in [rate]. *)
Definition loan (rate : string) : Loan.Inputs B64.float :=
  {| Loan.principal := B64.of_Z 300000; Loan.interestRate := rate;
     Loan.loanTermYears := B64.of_Z 30 |}.

(** [v] shows as the amount [cents / 100] when formatted with two
    decimals: it lies within half a cent of it. *)
Definition shows_as (v : B64.float) (cents : Z) : bool :=
  (B64.leb (B64.of_ratio false (Z.to_pos (10 * cents - 5)) 1000) v
   && B64.ltb v (B64.of_ratio false (Z.to_pos (10 * cents + 5)) 1000))%bool.

(** The loan of the scenario, in exact arithmetic. *)
Definition exact_loan : Loan.Inputs R :=
  {| Loan.principal := 300000%R; Loan.interestRate := "4.5";
     Loan.loanTermYears := 30%R |}.

(** A three-row table to run the lookup on. *)
Definition sample_rates : list TaxRow :=
  [ {| State := "Alabama"; Effective_Tax_Rate_2023 := "0.41%" |};
    {| State := "Alaska"; Effective_Tax_Rate_2023 := "1.22%" |};
    {| State := "Arizona"; Effective_Tax_Rate_2023 := "0.63%" |} ].

(** ** The callers in the calculator page

    The page validates the form with a schema and shows the breakdown in
    a results panel.  Two pieces of it are plain arithmetic on the values
    of this module: the checks the schema runs on the rate fields, and
    the "Adjusted Monthly Payment" line of the panel. *)

(** [isNaN(v)] on a number. *)
Definition isNaN (v : B64.float) : bool :=
  match v with
  | S754_nan => true
  | _ => false
  end.

Section FormSchema.
Variable parseFloat' : string -> B64.float.

(** [interestRate]'s first check:
    [(val) => !isNaN(parseFloat(val)) && parseFloat(val) > 0]. *)
Definition interestRate_refine_positive (val : string) : bool :=
  (negb (isNaN (parseFloat' val))
   && B64.ltb (B64.of_Z 0) (parseFloat' val))%bool.

(** [interestRate]'s second check: [(val) => parseFloat(val) <= 30]. *)
Definition interestRate_refine_max (val : string) : bool :=
  B64.leb (parseFloat' val) (B64.of_Z 30).

(** The check of [pmiRate], [insuranceRate] and [propertyTaxRate]:
    [(val) => !isNaN(parseFloat(val)) && parseFloat(val) >= 0]. *)
Definition rate_refine_nonnegative (val : string) : bool :=
  (negb (isNaN (parseFloat' val))
   && B64.leb (B64.of_Z 0) (parseFloat' val))%bool.

End FormSchema.



(** [inputs] with another principal, the other fields kept. *)
Definition with_principal {num : Type} (P : num) (inputs : Inputs num)
    : Inputs num :=
  {| principal := P; interestRate := interestRate inputs;
     loanTermYears := loanTermYears inputs; pmiRate := pmiRate inputs;
     insuranceRate := insuranceRate inputs;
     propertyTaxRate := propertyTaxRate inputs |}.

(** * Properties *)

(** ** The examples, evaluated *)

Example lookup_Alabama :
  getPropertyTaxByState sample_rates "Alabama" = Returns "0.41%".
Proof. reflexivity. Qed.

Example lookup_Atlantis :
  getPropertyTaxByState sample_rates "Atlantis"
  = Throws "Could not find state? Huh??".
Proof. reflexivity. Qed.

Example parseFloat_examples :
  Ref.parseFloat "4.5" = S754_finite false 5066549580791808 (-50)
  /\ Ref.parseFloat "3.00" = B64.of_Z 3
  /\ Ref.parseFloat "  -1.25e2 per cent" = B64.of_Z (-125)
  /\ Ref.parseFloat ".5" = Ref.parseFloat "0.5"
  /\ Ref.parseFloat "" = B64.NaN
  /\ Ref.parseFloat "rate" = B64.NaN.
Proof. vm_compute. repeat split. Qed.

Example pow_examples :
  Ref.pow (B64.of_Z 2) (B64.of_Z 10) = B64.of_Z 1024
  /\ Ref.pow (B64.of_Z 2) (B64.of_Z (-2)) = Ref.parseFloat "0.25"
  /\ Ref.pow (B64.of_Z 1) (B64.of_Z 360) = B64.of_Z 1
  /\ Ref.pow (B64.of_Z 1) B64.Infinity = B64.NaN
  /\ Ref.pow B64.NaN (B64.of_Z 0) = B64.of_Z 1.
Proof. vm_compute. repeat split. Qed.

(** The lifetime cost of the scenario shows as 655220.13; the
    maintenance estimate, 75000 a month in [totalMonthlyPayment], is not
    part of it. *)
Example scenario_totalCost :
  let r := @getTrueCostsOfHome _ JS scenario in
  shows_as (totalCost r) 65522013 = true
  /\ shows_as (totalMonthlyPayment r) 7682006 = true.
Proof. vm_compute. repeat split. Qed.

Example scenario_payment :
  shows_as (mortgagePayment (@getTrueCostsOfHome _ JS scenario)) 152006 = true.
Proof. vm_compute. reflexivity. Qed.

(** ** The cost breakdown, in every number system

    The statements of this section hold for any [NumberOps], so in
    particular for binary64, bit for bit. *)

Section Breakdown.
Context {num : Type} `{NumberOps num}.

Lemma mortgagePayment_is_getMonthlyMortgage (inputs : Inputs num) :
  mortgagePayment (getTrueCostsOfHome inputs)
  = monthlyPayment (getMonthlyMortgage (loan_of inputs)).
Proof. reflexivity. Qed.

Lemma monthlyMaintenanceRate_unfold (inputs : Inputs num) :
  TrueCosts.monthlyMaintenanceRate inputs
  = div (mul (principal inputs) (parseFloat "3.00")) (ofZ 12).
Proof. reflexivity. Qed.

(** C4: the returned [totalCost] is the sum of the lifetime principal
    and interest, PMI, insurance and property tax, and of nothing else:
    the maintenance estimate is a term of [totalMonthlyPayment] only. *)
Theorem totalCost_is_sum_of_four_totals (inputs : Inputs num) :
  let r := getTrueCostsOfHome inputs in
  totalCost r
  = add (add (add (TrueCosts.totalPrincipalAndInterest inputs) (totalPmi r))
           (totalInsurance r))
        (totalPropertyTax r)
  /\ TrueCosts.totalPrincipalAndInterest inputs
     = mul (mortgagePayment r) (mul (loanTermYears inputs) (ofZ 12))
  /\ totalMonthlyPayment r
     = add (add (add (add (mortgagePayment r) (monthlyPmi r))
                   (monthlyInsurance r))
              (monthlyPropertyTax r))
           (TrueCosts.monthlyMaintenanceRate inputs).
Proof. cbv zeta. repeat split. Qed.

(** C5: the returned [totalMonthlyPayment] is the sum of the five
    monthly components: principal and interest (the payment
    [getMonthlyMortgage] returns), PMI, insurance, property tax and
    maintenance. *)
Theorem totalMonthlyPayment_is_sum_of_five (inputs : Inputs num) :
  let r := getTrueCostsOfHome inputs in
  totalMonthlyPayment r
  = add (add (add (add (monthlyPayment (getMonthlyMortgage (loan_of inputs)))
                     (monthlyPmi r))
                (monthlyInsurance r))
           (monthlyPropertyTax r))
        (TrueCosts.monthlyMaintenanceRate inputs).
Proof.
  cbv zeta. rewrite <- mortgagePayment_is_getMonthlyMortgage. reflexivity.
Qed.

(** C8: the returned [totalInterest] is the total of principal and
    interest, which is the monthly payment times the number of
    payments, minus the principal. *)
Theorem totalInterest_is_total_paid_minus_principal (inputs : Inputs num) :
  let r := getTrueCostsOfHome inputs in
  let numberOfPayments := mul (loanTermYears inputs) (ofZ 12) in
  let totalPrincipalAndInterest :=
    mul (monthlyPayment (getMonthlyMortgage (loan_of inputs)))
        numberOfPayments in
  TrueCosts.totalPrincipalAndInterest inputs = totalPrincipalAndInterest
  /\ totalInterest r = sub totalPrincipalAndInterest (principal inputs).
Proof.
  cbv zeta. rewrite <- mortgagePayment_is_getMonthlyMortgage. split; reflexivity.
Qed.

(** C10: two inputs that agree on everything but [interestRate] get the
    same PMI, insurance and property-tax fields. *)
Theorem interestRate_does_not_reach_pmi_insurance_tax (a b : Inputs num) :
  principal a = principal b ->
  loanTermYears a = loanTermYears b ->
  pmiRate a = pmiRate b ->
  insuranceRate a = insuranceRate b ->
  propertyTaxRate a = propertyTaxRate b ->
  let ra := getTrueCostsOfHome a in
  let rb := getTrueCostsOfHome b in
  monthlyPmi ra = monthlyPmi rb
  /\ totalPmi ra = totalPmi rb
  /\ monthlyInsurance ra = monthlyInsurance rb
  /\ totalInsurance ra = totalInsurance rb
  /\ yearlyPropertyTax ra = yearlyPropertyTax rb
  /\ monthlyPropertyTax ra = monthlyPropertyTax rb
  /\ totalPropertyTax ra = totalPropertyTax rb.
Proof.
  intros HP HT Hpmi Hins Htax ra rb. subst ra rb.
  unfold getTrueCostsOfHome; cbn [monthlyPmi totalPmi monthlyInsurance
    totalInsurance yearlyPropertyTax monthlyPropertyTax totalPropertyTax].
  unfold TrueCosts.totalPmi, TrueCosts.totalInsurance,
    TrueCosts.monthlyPropertyTax, TrueCosts.totalPropertyTax,
    TrueCosts.monthlyInsurance, TrueCosts.annualInsurance,
    TrueCosts.yearlyPropertyTax, TrueCosts.monthlyPmi,
    TrueCosts.numberOfPayments, TrueCosts.loanTermYearsNum,
    TrueCosts.pmiRateNum, TrueCosts.insuranceRateNum,
    TrueCosts.propertyTaxRateNum.
  rewrite HP, HT, Hpmi, Hins, Htax. repeat split.
Qed.

End Breakdown.

Lemma interestRate_does_not_reach_pmi_insurance_tax_witness :
  let a := scenario in
  let b := {| principal := B64.of_Z 300000; interestRate := "7.25";
              loanTermYears := B64.of_Z 30; pmiRate := "0.5";
              insuranceRate := "0.35"; propertyTaxRate := "0.35" |} in
  let ra := @getTrueCostsOfHome _ JS a in
  let rb := @getTrueCostsOfHome _ JS b in
  B64.eqb (mortgagePayment ra) (mortgagePayment rb) = false
  /\ monthlyPmi ra = monthlyPmi rb
  /\ totalPmi ra = totalPmi rb
  /\ monthlyInsurance ra = monthlyInsurance rb
  /\ totalInsurance ra = totalInsurance rb
  /\ yearlyPropertyTax ra = yearlyPropertyTax rb
  /\ monthlyPropertyTax ra = monthlyPropertyTax rb
  /\ totalPropertyTax ra = totalPropertyTax rb.
Proof.
  cbv zeta. split.
  - vm_compute. reflexivity.
  - apply (@interestRate_does_not_reach_pmi_insurance_tax _ JS); reflexivity.
Defined.

(** ** The property-tax lookup *)

Section Lookup.
Variable table : list TaxRow.

Lemma find_first_row (state : string) (row : TaxRow) :
  find (fun x => String.eqb (State x) state) table = Some row
  <-> first_row table state row.
Proof.
  unfold first_row. induction table as [|r rest IH]; simpl.
  - split; [discriminate|].
    intros (before & after & E & _); now destruct before.
  - destruct (String.eqb_spec (State r) state) as [E|NE].
    + split.
      * intros [= ->]. exists [], rest. repeat split; auto.
      * intros (before & after & Et & Es & Hb).
        destruct before as [|r0 before]; simpl in Et.
        -- now injection Et as ->.
        -- injection Et as -> _. exfalso. apply (Hb r0); simpl; auto.
    + rewrite IH. split.
      * intros (before & after & -> & Es & Hb).
        exists (r :: before), after. repeat split; auto.
        intros r0 [<-|Hin]; auto.
      * intros (before & after & Et & Es & Hb).
        destruct before as [|r0 before]; simpl in Et.
        -- injection Et as -> _. contradiction.
        -- injection Et as -> ->. exists before, after.
           repeat split; auto. intros r1 Hin. apply Hb. now right.
Qed.

Lemma find_none_no_row (state : string) :
  find (fun x => String.eqb (State x) state) table = None
  <-> ~ has_row table state.
Proof.
  unfold has_row. split.
  - intros Hnone (row & Hin & Es).
    pose proof (find_none _ _ Hnone row Hin) as Hf. simpl in Hf.
    rewrite Es, String.eqb_refl in Hf. discriminate.
  - intros Hno.
    destruct (find _ table) as [row|] eqn:Ef; [|reflexivity].
    exfalso. apply Hno. exists row.
    apply find_some in Ef as [Hin Heq].
    apply String.eqb_eq in Heq. auto.
Qed.

(** C9: [getPropertyTaxByState] throws exactly when the table has no
    row whose [State] is the given name; when there is one, it returns
    the rate stored in that row (the first such row, should the table
    repeat a name). *)
Theorem getPropertyTaxByState_throws_iff_no_row (state : string) :
  ((exists message, getPropertyTaxByState table state = Throws message)
   <-> ~ has_row table state)
  /\ (has_row table state ->
      exists row, first_row table state row
        /\ getPropertyTaxByState table state
           = Returns (Effective_Tax_Rate_2023 row))
  /\ (forall rate, getPropertyTaxByState table state = Returns rate ->
      exists row, In row table /\ State row = state
        /\ Effective_Tax_Rate_2023 row = rate).
Proof.
  unfold getPropertyTaxByState.
  destruct (find _ table) as [row|] eqn:Ef; simpl.
  - pose proof (proj1 (find_first_row state row) Ef) as Hfirst.
    assert (Hrow : has_row table state).
    { apply find_some in Ef as [Hin Heq]. apply String.eqb_eq in Heq.
      exists row; auto. }
    repeat split.
    + intros [message Hm]. discriminate.
    + intros Hno. contradiction.
    + intros _. exists row; auto.
    + intros rate [= <-]. destruct Hrow as (r & Hin & Es).
      apply find_some in Ef as [Hin' Heq]. apply String.eqb_eq in Heq.
      exists row; auto.
  - pose proof (proj1 (find_none_no_row state) Ef) as Hno.
    repeat split.
    + intros _. exact Hno.
    + intros _. eexists; reflexivity.
    + intros Hrow. contradiction.
    + intros rate [=].
Qed.

End Lookup.

Lemma getPropertyTaxByState_throws_iff_no_row_witness :
  (exists row, first_row sample_rates "Alabama" row
     /\ getPropertyTaxByState sample_rates "Alabama"
        = Returns (Effective_Tax_Rate_2023 row))
  /\ (exists message,
        getPropertyTaxByState sample_rates "Atlantis" = Throws message).
Proof.
  split.
  - apply (proj1 (proj2
             (getPropertyTaxByState_throws_iff_no_row sample_rates "Alabama"))).
    eexists; split; [left; reflexivity | reflexivity].
  - apply (proj1
             (getPropertyTaxByState_throws_iff_no_row sample_rates "Atlantis")).
    intros (row & Hin & Es). simpl in Hin.
    destruct Hin as [<- | [<- | [<- | []]]]; discriminate.
Defined.

(** ** Binary64: what the code computes at the edges of its domain *)

Section Binary64Payment.
Import B64.
Variable parseFloat' : string -> float.
Variable Math_pow' : float -> float -> float.

Lemma getMonthlyMortgage_binary64 (inputs : Loan.Inputs float) :
  let i := fdiv (fdiv (parseFloat' (Loan.interestRate inputs)) (of_Z 100))
                (of_Z 12) in
  let n := fmul (Loan.loanTermYears inputs) (of_Z 12) in
  let x := Math_pow' (fadd (of_Z 1) i) n in
  monthlyPayment (@getMonthlyMortgage _ (Binary64 parseFloat' Math_pow') inputs)
  = fdiv (fmul (fmul (Loan.principal inputs) x) i) (fsub x (of_Z 1)).
Proof. reflexivity. Qed.

Lemma monthly_rate_of_zero (s : bool) :
  fdiv (fdiv (S754_zero s) (of_Z 100)) (of_Z 12) = S754_zero s.
Proof. destruct s; reflexivity. Qed.

Lemma one_plus_zero (s : bool) : fadd (of_Z 1) (S754_zero s) = of_Z 1.
Proof. destruct s; reflexivity. Qed.

Lemma one_minus_one : fsub (of_Z 1) (of_Z 1) = S754_zero false.
Proof. reflexivity. Qed.

(** Whatever [y] is, [y * 0] is a zero or NaN, and dividing that by
    zero gives NaN. *)
Lemma times_zero_over_zero (y : float) (s : bool) :
  fdiv (fmul y (S754_zero s)) (S754_zero false) = NaN.
Proof. destruct y; reflexivity. Qed.

Lemma times_NaN (y : float) : fmul y NaN = NaN.
Proof. destruct y; reflexivity. Qed.

(** C2, as the code has it: when [interestRate] parses to zero,
    [getMonthlyMortgage] returns NaN, for every principal and term.
    The formula is evaluated as it stands: [x = Math.pow(1, n)] is 1
    (or NaN, for a term that is NaN or infinite), so the payment is
    [(principal * x * 0) / (x - 1)], a zero or NaN divided by zero or
    NaN. *)
Theorem zero_rate_payment_is_NaN (inputs : Loan.Inputs float) :
  is_zero (parseFloat' (Loan.interestRate inputs)) = true ->
  (let n := fmul (Loan.loanTermYears inputs) (of_Z 12) in
   Math_pow' (of_Z 1) n = of_Z 1 \/ Math_pow' (of_Z 1) n = NaN) ->
  monthlyPayment (@getMonthlyMortgage _ (Binary64 parseFloat' Math_pow') inputs) = NaN.
Proof.
  intros Hzero Hpow. cbv zeta in Hpow.
  rewrite getMonthlyMortgage_binary64. cbv zeta.
  destruct (parseFloat' (Loan.interestRate inputs)) as [s| | |];
    try discriminate.
  rewrite monthly_rate_of_zero, one_plus_zero.
  destruct Hpow as [-> | ->].
  - rewrite one_minus_one. apply times_zero_over_zero.
  - rewrite times_NaN. reflexivity.
Qed.

End Binary64Payment.

Lemma zero_rate_payment_is_NaN_witness :
  monthlyPayment (@getMonthlyMortgage _ JS (loan "0")) = B64.NaN.
Proof.
  apply (zero_rate_payment_is_NaN Ref.parseFloat Ref.pow (loan "0")).
  - reflexivity.
  - left. vm_compute. reflexivity.
Defined.

(** C2, as stated, fails: on 300000 over 30 years at a rate of "0" the
    code returns NaN, which is not equal to the 833.33 of
    [P / (T * 12)]. *)
Lemma zero_rate_payment_is_not_P_over_n :
  let M := monthlyPayment (@getMonthlyMortgage _ JS (loan "0")) in
  let P_over_n :=
    B64.fdiv (B64.of_Z 300000) (B64.fmul (B64.of_Z 30) (B64.of_Z 12)) in
  M = B64.NaN
  /\ shows_as P_over_n 83333 = true
  /\ B64.eqb M P_over_n = false.
Proof. vm_compute. repeat split. Qed.


(** C1: the maintenance term that enters [totalMonthlyPayment] is
    [principal * 3 / 12], without the division by 100 that the PMI,
    insurance and tax lines have.  On the scenario it is 75000 a month
    where 3% of the principal a year is 750 a month, and the total
    monthly payment shows as 76820.06. *)
Theorem maintenance_is_three_times_principal_a_year :
  (forall (num : Type) (ops : NumberOps num) (inputs : Inputs num),
      TrueCosts.monthlyMaintenanceRate inputs
      = div (mul (principal inputs) (parseFloat "3.00")) (ofZ 12))
  /\ (let r := @getTrueCostsOfHome _ JS scenario in
      let three_percent_monthly :=
        B64.fdiv (B64.fdiv (B64.fmul (principal scenario) (B64.of_Z 3))
                    (B64.of_Z 100)) (B64.of_Z 12) in
      @TrueCosts.monthlyMaintenanceRate _ JS scenario = B64.of_Z 75000
      /\ three_percent_monthly = B64.of_Z 750
      /\ B64.eqb (@TrueCosts.monthlyMaintenanceRate _ JS scenario)
           three_percent_monthly = false
      /\ shows_as (totalMonthlyPayment r) 7682006 = true).
Proof.
  split.
  - intros. reflexivity.
  - vm_compute. repeat split.
Qed.

(** ** Exact arithmetic: the annuity formula *)

Section ExactPayment.
Local Open Scope R_scope.

Lemma Rpower_gt_1 (b y : R) : 1 < b -> 0 < y -> 1 < Rpower b y.
Proof.
  intros Hb Hy. rewrite <- (Rpower_O b) at 1 by lra.
  apply Rpower_lt; assumption.
Qed.



Variable parseFloat' : string -> R.

Lemma getMonthlyMortgage_exact (inputs : Loan.Inputs R) :
  let i := parseFloat' (Loan.interestRate inputs) / 100 / 12 in
  let n := Loan.loanTermYears inputs * 12 in
  let x := Rpower (1 + i) n in
  monthlyPayment (@getMonthlyMortgage R (Exact parseFloat') inputs)
  = Loan.principal inputs * x * i / (x - 1).
Proof. reflexivity. Qed.


End ExactPayment.

Lemma parseFloat_exact_4_5 : Real.parseFloat "4.5" = (45 / 10)%R.
Proof. reflexivity. Qed.


(** C3: [getMonthlyMortgage] returns the payment of the fixed-rate
    annuity formula, with [i = r / 100 / 12] and [n = T * 12].  In every
    number system the payment is [(P * x * i) / (x - 1)] for
    [x = Math.pow(1 + i, n)]; in exact arithmetic, for a positive
    principal, rate and term, the denominator is positive and this is
    [P * i * (1+i)^n / ((1+i)^n - 1)]; in binary64 the payment of the
    scenario (300000 at 4.5% over 30 years) shows as 1520.06. *)
Theorem getMonthlyMortgage_is_annuity_formula :
  (forall (num : Type) (ops : NumberOps num) (inputs : Loan.Inputs num),
      let i := div (div (parseFloat (Loan.interestRate inputs)) (ofZ 100))
                   (ofZ 12) in
      let n := mul (Loan.loanTermYears inputs) (ofZ 12) in
      let x := Math_pow (add (ofZ 1) i) n in
      monthlyPayment (getMonthlyMortgage inputs)
      = div (mul (mul (Loan.principal inputs) x) i) (sub x (ofZ 1)))
  /\ (forall (parseFloat' : string -> R) (inputs : Loan.Inputs R),
      let P := Loan.principal inputs in
      let r := parseFloat' (Loan.interestRate inputs) in
      let T := Loan.loanTermYears inputs in
      (P > 0 -> r > 0 -> T > 0 ->
       let i := r / 100 / 12 in
       let n := T * 12 in
       Rpower (1 + i) n - 1 > 0
       /\ monthlyPayment (@getMonthlyMortgage R (Exact parseFloat') inputs)
          = P * i * Rpower (1 + i) n / (Rpower (1 + i) n - 1))%R)
  /\ shows_as (monthlyPayment (@getMonthlyMortgage _ JS (loan "4.5"))) 152006
     = true.
Proof.
  split; [|split].
  - intros. reflexivity.
  - intros pf inputs P r T HP Hr HT i n. split.
    + pose proof (Rpower_gt_1 (1 + i) n) as Hx.
      assert (0 < i)%R by (unfold i; lra).
      assert (0 < n)%R by (unfold n; lra).
      specialize (Hx ltac:(lra) ltac:(lra)). lra.
    + rewrite getMonthlyMortgage_exact. cbv zeta. fold P r T i n.
      unfold Rdiv. ring.
  - vm_compute. reflexivity.
Qed.

Lemma getMonthlyMortgage_is_annuity_formula_witness :
  (let i := 45 / 10 / 100 / 12 in
   let n := 30 * 12 in
   Rpower (1 + i) n - 1 > 0
   /\ monthlyPayment (@getMonthlyMortgage R (Exact Real.parseFloat) exact_loan)
      = 300000 * i * Rpower (1 + i) n / (Rpower (1 + i) n - 1))%R.
Proof.
  pose proof (proj1 (proj2 getMonthlyMortgage_is_annuity_formula)
                Real.parseFloat exact_loan) as Hformula.
  cbv zeta in Hformula. simpl in Hformula.
  rewrite parseFloat_exact_4_5 in Hformula.
  apply Hformula; lra.
Defined.

(** C7: the PMI, insurance and property-tax figures.  In every number
    system [monthlyPmi] is [principal * pmiRate / 100 / 12],
    [monthlyInsurance] is [principal * (insuranceRate / 100) / 12],
    [yearlyPropertyTax] is [principal * propertyTaxRate / 100],
    [monthlyPropertyTax] is a twelfth of it and [totalPropertyTax] is
    [yearlyPropertyTax * loanTermYears]; in exact arithmetic the insurance
    figure is [principal * insuranceRate / 100 / 12]; and in binary64 the
    scenario gives exactly 125, 87.5 and 87.5. *)
Theorem pmi_insurance_and_tax_figures :
  (forall (num : Type) (ops : NumberOps num) (inputs : Inputs num),
      let r := getTrueCostsOfHome inputs in
      let P := principal inputs in
      monthlyPmi r
      = div (div (mul P (parseFloat (pmiRate inputs))) (ofZ 100)) (ofZ 12)
      /\ monthlyInsurance r
         = div (mul P (div (parseFloat (insuranceRate inputs)) (ofZ 100)))
               (ofZ 12)
      /\ yearlyPropertyTax r
         = div (mul P (parseFloat (propertyTaxRate inputs))) (ofZ 100)
      /\ monthlyPropertyTax r = div (yearlyPropertyTax r) (ofZ 12)
      /\ totalPropertyTax r = mul (yearlyPropertyTax r) (loanTermYears inputs))
  /\ (forall (parseFloat' : string -> R) (inputs : Inputs R),
      monthlyInsurance (@getTrueCostsOfHome R (Exact parseFloat') inputs)
      = (principal inputs * parseFloat' (insuranceRate inputs) / 100 / 12)%R)
  /\ (let r := @getTrueCostsOfHome _ JS scenario in
      monthlyPmi r = Ref.parseFloat "125.00"
      /\ monthlyInsurance r = Ref.parseFloat "87.50"
      /\ monthlyPropertyTax r = Ref.parseFloat "87.50").
Proof.
  split; [|split].
  - intros. cbv zeta. repeat split.
  - intros pf inputs.
    change (principal inputs * (pf (insuranceRate inputs) / 100) / 12
            = principal inputs * pf (insuranceRate inputs) / 100 / 12)%R.
    unfold Rdiv. ring.
  - vm_compute. repeat split.
Qed.


(** * Further properties of the module and of its callers *)

(** ** The loan figures do not depend on the other rates *)

Section BreakdownLoan.
Context {num : Type} `{NumberOps num}.

(** X1: two inputs with the same principal, interest rate and term get
    the same [mortgagePayment] and [totalInterest], whatever their PMI,
    insurance and property-tax rates are. *)
Theorem other_rates_do_not_reach_payment_and_interest (a b : Inputs num) :
  principal a = principal b ->
  interestRate a = interestRate b ->
  loanTermYears a = loanTermYears b ->
  mortgagePayment (getTrueCostsOfHome a) = mortgagePayment (getTrueCostsOfHome b)
  /\ totalInterest (getTrueCostsOfHome a) = totalInterest (getTrueCostsOfHome b).
Proof.
  intros HP Hr HT.
  unfold getTrueCostsOfHome; cbn [mortgagePayment totalInterest].
  unfold TrueCosts.totalInterest, TrueCosts.totalPrincipalAndInterest,
    TrueCosts.numberOfPayments, TrueCosts.monthlyPayment.
  rewrite HP, Hr, HT. split; reflexivity.
Qed.

End BreakdownLoan.

Lemma other_rates_do_not_reach_payment_and_interest_witness :
  let b := {| principal := B64.of_Z 300000; interestRate := "4.5";
              loanTermYears := B64.of_Z 30; pmiRate := "1.5";
              insuranceRate := "0"; propertyTaxRate := "2.1" |} in
  mortgagePayment (@getTrueCostsOfHome _ JS scenario)
  = mortgagePayment (@getTrueCostsOfHome _ JS b)
  /\ totalInterest (@getTrueCostsOfHome _ JS scenario)
     = totalInterest (@getTrueCostsOfHome _ JS b).
Proof.
  apply (@other_rates_do_not_reach_payment_and_interest _ JS); reflexivity.
Defined.

(** ** The lookup on tables put together *)

Section LookupTables.

Lemma lookup_cons (row : TaxRow) (table : list TaxRow) (state : string) :
  getPropertyTaxByState (row :: table) state
  = if String.eqb (State row) state
    then Returns (Effective_Tax_Rate_2023 row)
    else getPropertyTaxByState table state.
Proof.
  unfold getPropertyTaxByState; simpl.
  now destruct (String.eqb (State row) state).
Qed.

(** X2: in a table made of two parts the rows of the first part win: the
    lookup returns what it returns on the first part, and goes to the
    second part only when the first has no row for the state. *)
Theorem lookup_in_appended_tables (first second : list TaxRow)
    (state : string) :
  getPropertyTaxByState (first ++ second)%list state
  = match getPropertyTaxByState first state with
    | Returns rate => Returns rate
    | Throws _ => getPropertyTaxByState second state
    end.
Proof.
  induction first as [|row rest IH].
  - reflexivity.
  - simpl app. rewrite !lookup_cons.
    destruct (String.eqb (State row) state); [reflexivity | exact IH].
Qed.

Lemma lookup_row_of_duplicate_free (table : list TaxRow) (row : TaxRow) :
  NoDup (map State table) ->
  In row table ->
  getPropertyTaxByState table (State row)
  = Returns (Effective_Tax_Rate_2023 row).
Proof.
  induction table as [|r rest IH]; intros Hnd Hin; [contradiction|].
  simpl in Hnd. inversion Hnd as [|? ? Hnotin Hnd']; subst.
  rewrite lookup_cons. destruct Hin as [-> | Hin].
  - now rewrite String.eqb_refl.
  - destruct (String.eqb_spec (State r) (State row)) as [E | NE].
    + exfalso. apply Hnotin. rewrite E. now apply in_map.
    + now apply IH.
Qed.

(** X3: when no state name occurs twice in the table, every row is found
    by its own name: the lookup of [State row] returns the rate of
    [row]. *)
Theorem every_row_is_found_by_its_name (table : list TaxRow) (row : TaxRow) :
  NoDup (map State table) ->
  In row table ->
  getPropertyTaxByState table (State row)
  = Returns (Effective_Tax_Rate_2023 row).
Proof. exact (lookup_row_of_duplicate_free table row). Qed.

(** X4: when no state name occurs twice, the order of the rows does not
    matter: a table with the same rows in another order gives the same
    result, and the same error, for every state. *)
Theorem lookup_ignores_row_order (table table' : list TaxRow)
    (state : string) :
  NoDup (map State table) ->
  Permutation table table' ->
  getPropertyTaxByState table' state = getPropertyTaxByState table state.
Proof.
  intros Hnd Hperm.
  assert (Hnd' : NoDup (map State table')).
  { eapply Permutation_NoDup; [|exact Hnd]. now apply Permutation_map. }
  destruct (find (fun x => String.eqb (State x) state) table) as [row|] eqn:Ef.
  - apply find_some in Ef as [Hin Heq]. apply String.eqb_eq in Heq. subst state.
    rewrite (lookup_row_of_duplicate_free table row Hnd Hin).
    apply lookup_row_of_duplicate_free; [exact Hnd'|].
    eapply Permutation_in; eassumption.
  - unfold getPropertyTaxByState at 2. rewrite Ef. simpl.
    destruct (find (fun x => String.eqb (State x) state) table')
      as [row|] eqn:Ef'.
    + exfalso. apply find_some in Ef' as [Hin Heq].
      apply Permutation_sym in Hperm.
      pose proof (Permutation_in _ Hperm Hin) as Hin0.
      pose proof (find_none _ _ Ef row Hin0) as Hf. simpl in Hf.
      congruence.
    + unfold getPropertyTaxByState. now rewrite Ef'.
Qed.

End LookupTables.

Lemma every_row_is_found_by_its_name_witness :
  getPropertyTaxByState sample_rates "Alaska" = Returns "1.22%".
Proof.
  apply (every_row_is_found_by_its_name sample_rates
           {| State := "Alaska"; Effective_Tax_Rate_2023 := "1.22%" |}).
  - simpl. repeat constructor; simpl; intuition discriminate.
  - simpl. auto.
Defined.

Lemma lookup_ignores_row_order_witness :
  getPropertyTaxByState (rev sample_rates) "Alaska"
  = getPropertyTaxByState sample_rates "Alaska".
Proof.
  apply (lookup_ignores_row_order sample_rates (rev sample_rates) "Alaska").
  - simpl. repeat constructor; simpl; intuition discriminate.
  - apply Permutation_rev.
Defined.

(** ** Binary64: inputs that are not numbers, a zero term, zero rates *)

Section Binary64Breakdown.
Import B64.
Variable parseFloat' : string -> float.
Variable Math_pow' : float -> float -> float.

Lemma NaN_plus (y : float) : fadd NaN y = NaN.
Proof. reflexivity. Qed.

Lemma NaN_minus (y : float) : fsub NaN y = NaN.
Proof. reflexivity. Qed.

Lemma NaN_times (y : float) : fmul NaN y = NaN.
Proof. reflexivity. Qed.

Lemma NaN_over (y : float) : fdiv NaN y = NaN.
Proof. reflexivity. Qed.

Lemma plus_NaN (y : float) : fadd y NaN = NaN.
Proof. destruct y; reflexivity. Qed.

Lemma TrueCosts_monthlyPayment_binary64 (inputs : Inputs float) :
  let i := fdiv (fdiv (parseFloat' (interestRate inputs)) (of_Z 100))
                (of_Z 12) in
  let n := fmul (loanTermYears inputs) (of_Z 12) in
  let x := Math_pow' (fadd (of_Z 1) i) n in
  @TrueCosts.monthlyPayment _ (Binary64 parseFloat' Math_pow') inputs
  = fdiv (fmul (fmul (principal inputs) x) i) (fsub x (of_Z 1)).
Proof. reflexivity. Qed.

(** The four figures that are computed from the monthly payment, in
    terms of it. *)
Lemma figures_from_payment (inputs : Inputs float) :
  let r := @getTrueCostsOfHome _ (Binary64 parseFloat' Math_pow') inputs in
  let M := @TrueCosts.monthlyPayment _ (Binary64 parseFloat' Math_pow') inputs in
  let n := fmul (loanTermYears inputs) (of_Z 12) in
  mortgagePayment r = M
  /\ totalInterest r = fsub (fmul M n) (principal inputs)
  /\ totalMonthlyPayment r
     = fadd (fadd (fadd (fadd M (monthlyPmi r)) (monthlyInsurance r))
               (monthlyPropertyTax r))
            (@TrueCosts.monthlyMaintenanceRate _ (Binary64 parseFloat' Math_pow') inputs)
  /\ totalCost r
     = fadd (fadd (fadd (fmul M n) (totalPmi r)) (totalInsurance r))
            (totalPropertyTax r).
Proof. cbv zeta. repeat split. Qed.

(** X5: when [interestRate] is not the text of a number ([parseFloat]
    gives NaN), [mortgagePayment], [totalInterest], [totalMonthlyPayment]
    and [totalCost] are all NaN: nothing is thrown and nothing is
    replaced by a default, whatever the principal, the term and the
    other rates are. *)
Theorem non_numeric_interestRate_gives_NaN (inputs : Inputs float) :
  parseFloat' (interestRate inputs) = NaN ->
  let r := @getTrueCostsOfHome _ (Binary64 parseFloat' Math_pow') inputs in
  mortgagePayment r = NaN
  /\ totalInterest r = NaN
  /\ totalMonthlyPayment r = NaN
  /\ totalCost r = NaN.
Proof.
  intros Hrate r. subst r.
  assert (HM : @TrueCosts.monthlyPayment _ (Binary64 parseFloat' Math_pow') inputs = NaN).
  { rewrite TrueCosts_monthlyPayment_binary64. cbv zeta. rewrite Hrate.
    change (fdiv (fdiv NaN (of_Z 100)) (of_Z 12)) with NaN.
    rewrite times_NaN. reflexivity. }
  destruct (figures_from_payment inputs) as (E1 & E2 & E3 & E4).
  cbv zeta in E1, E2, E3, E4.
  rewrite E1, E2, E3, E4, HM. repeat split.
Qed.

(** X6: when the principal is NaN, every figure of the breakdown is
    NaN. *)
Theorem NaN_principal_gives_NaN_everywhere (inputs : Inputs float) :
  principal inputs = NaN ->
  let r := @getTrueCostsOfHome _ (Binary64 parseFloat' Math_pow') inputs in
  mortgagePayment r = NaN /\ totalInterest r = NaN
  /\ totalPmi r = NaN /\ totalInsurance r = NaN
  /\ totalMonthlyPayment r = NaN /\ totalCost r = NaN
  /\ yearlyPropertyTax r = NaN /\ monthlyPropertyTax r = NaN
  /\ monthlyInsurance r = NaN /\ monthlyPmi r = NaN
  /\ totalPropertyTax r = NaN.
Proof.
  intros HP r. subst r.
  unfold getTrueCostsOfHome;
    cbn [mortgagePayment totalInterest totalPmi totalInsurance
         totalMonthlyPayment totalCost yearlyPropertyTax monthlyPropertyTax
         monthlyInsurance monthlyPmi totalPropertyTax].
  unfold TrueCosts.totalCost, TrueCosts.totalMonthlyPayment,
    TrueCosts.totalInterest, TrueCosts.totalPrincipalAndInterest,
    TrueCosts.totalPmi, TrueCosts.totalInsurance, TrueCosts.totalPropertyTax,
    TrueCosts.monthlyPropertyTax, TrueCosts.yearlyPropertyTax,
    TrueCosts.monthlyInsurance, TrueCosts.annualInsurance,
    TrueCosts.monthlyPmi.
  rewrite TrueCosts_monthlyPayment_binary64. cbv zeta.
  rewrite HP. repeat split.
Qed.

Lemma over_zero_not_finite (y : float) :
  is_finite (fdiv y (S754_zero false)) = false.
Proof. destruct y; reflexivity. Qed.

Lemma not_finite_times_zero (y : float) (s : bool) :
  is_finite y = false -> fmul y (S754_zero s) = NaN.
Proof. destruct y; simpl; intros E; try discriminate; reflexivity. Qed.

Lemma zero_times_twelve (s : bool) :
  fmul (S754_zero s) (of_Z 12) = S754_zero s.
Proof. destruct s; reflexivity. Qed.

(** X7: a term of zero years divides by zero.  [Math.pow(b, 0)] is 1 for
    every base, so the denominator [x - 1] is zero: the monthly payment
    is an infinity or NaN, never a finite number, and the lifetime
    figures built on it, [totalInterest] and [totalCost], are NaN. *)
Theorem zero_term_gives_no_finite_payment (inputs : Inputs float) :
  is_zero (loanTermYears inputs) = true ->
  (forall (b : float) (s : bool), Math_pow' b (S754_zero s) = of_Z 1) ->
  let r := @getTrueCostsOfHome _ (Binary64 parseFloat' Math_pow') inputs in
  is_finite (mortgagePayment r) = false
  /\ totalInterest r = NaN
  /\ totalCost r = NaN.
Proof.
  intros HT Hpow r. subst r.
  destruct (loanTermYears inputs) as [s| | |] eqn:ET; try discriminate.
  assert (HM : is_finite (@TrueCosts.monthlyPayment _ (Binary64 parseFloat' Math_pow') inputs) = false).
  { rewrite TrueCosts_monthlyPayment_binary64. cbv zeta.
    rewrite ET, zero_times_twelve, Hpow, one_minus_one.
    apply over_zero_not_finite. }
  destruct (figures_from_payment inputs) as (E1 & E2 & _ & E4).
  cbv zeta in E1, E2, E4.
  rewrite E1, E2, E4, ET, zero_times_twelve.
  rewrite (not_finite_times_zero _ s HM). repeat split. exact HM.
Qed.

Lemma finite_times_zero (P z : float) :
  is_finite P = true -> is_zero z = true -> is_zero (fmul P z) = true.
Proof.
  destruct P, z; simpl; intros E E'; try discriminate; reflexivity.
Qed.

Lemma zero_over_constants (z : float) :
  is_zero z = true ->
  is_zero (fdiv z (of_Z 100)) = true /\ is_zero (fdiv z (of_Z 12)) = true.
Proof. destruct z as [[|]| | |]; simpl; intros E; try discriminate; split; reflexivity. Qed.

(** X8: for a finite principal, a rate of zero gives a zero figure: a
    [pmiRate] that parses to zero makes [monthlyPmi] zero, and likewise
    [insuranceRate] for [monthlyInsurance] and [propertyTaxRate] for
    [yearlyPropertyTax] and [monthlyPropertyTax]. *)
Theorem zero_rate_gives_zero_figure (inputs : Inputs float) :
  is_finite (principal inputs) = true ->
  let r := @getTrueCostsOfHome _ (Binary64 parseFloat' Math_pow') inputs in
  (is_zero (parseFloat' (pmiRate inputs)) = true ->
   is_zero (monthlyPmi r) = true)
  /\ (is_zero (parseFloat' (insuranceRate inputs)) = true ->
      is_zero (monthlyInsurance r) = true)
  /\ (is_zero (parseFloat' (propertyTaxRate inputs)) = true ->
      is_zero (yearlyPropertyTax r) = true
      /\ is_zero (monthlyPropertyTax r) = true).
Proof.
  intros HP r. subst r.
  unfold getTrueCostsOfHome;
    cbn [monthlyPmi monthlyInsurance yearlyPropertyTax monthlyPropertyTax].
  unfold TrueCosts.monthlyPropertyTax, TrueCosts.yearlyPropertyTax,
    TrueCosts.monthlyInsurance, TrueCosts.annualInsurance,
    TrueCosts.monthlyPmi, TrueCosts.pmiRateNum, TrueCosts.insuranceRateNum,
    TrueCosts.propertyTaxRateNum.
  cbn [mul div ofZ parseFloat Binary64].
  repeat split.
  - intros Hz.
    apply zero_over_constants, zero_over_constants.
    now apply finite_times_zero.
  - intros Hz.
    apply zero_over_constants, finite_times_zero; [exact HP|].
    now apply zero_over_constants.
  - apply zero_over_constants. now apply finite_times_zero.
  - apply zero_over_constants, zero_over_constants.
    now apply finite_times_zero.
Qed.

End Binary64Breakdown.

Lemma non_numeric_interestRate_gives_NaN_witness :
  let inputs := {| principal := B64.of_Z 300000; interestRate := "four";
                   loanTermYears := B64.of_Z 30; pmiRate := "0.5";
                   insuranceRate := "0.35"; propertyTaxRate := "0.35" |} in
  let r := @getTrueCostsOfHome _ JS inputs in
  mortgagePayment r = B64.NaN
  /\ totalInterest r = B64.NaN
  /\ totalMonthlyPayment r = B64.NaN
  /\ totalCost r = B64.NaN.
Proof.
  apply (non_numeric_interestRate_gives_NaN Ref.parseFloat Ref.pow).
  reflexivity.
Defined.

Lemma NaN_principal_gives_NaN_everywhere_witness :
  let r := @getTrueCostsOfHome _ JS (with_principal B64.NaN scenario) in
  mortgagePayment r = B64.NaN /\ totalInterest r = B64.NaN
  /\ totalPmi r = B64.NaN /\ totalInsurance r = B64.NaN
  /\ totalMonthlyPayment r = B64.NaN /\ totalCost r = B64.NaN
  /\ yearlyPropertyTax r = B64.NaN /\ monthlyPropertyTax r = B64.NaN
  /\ monthlyInsurance r = B64.NaN /\ monthlyPmi r = B64.NaN
  /\ totalPropertyTax r = B64.NaN.
Proof.
  apply (NaN_principal_gives_NaN_everywhere Ref.parseFloat Ref.pow).
  reflexivity.
Defined.

Lemma zero_term_gives_no_finite_payment_witness :
  let inputs := {| principal := B64.of_Z 300000; interestRate := "4.5";
                   loanTermYears := B64.of_Z 0; pmiRate := "0.5";
                   insuranceRate := "0.35"; propertyTaxRate := "0.35" |} in
  let r := @getTrueCostsOfHome _ JS inputs in
  B64.is_finite (mortgagePayment r) = false
  /\ totalInterest r = B64.NaN
  /\ totalCost r = B64.NaN.
Proof.
  apply (zero_term_gives_no_finite_payment Ref.parseFloat Ref.pow).
  - reflexivity.
  - intros b s. reflexivity.
Defined.

Lemma zero_rate_gives_zero_figure_witness :
  let inputs := {| principal := B64.of_Z 300000; interestRate := "4.5";
                   loanTermYears := B64.of_Z 30; pmiRate := "0";
                   insuranceRate := "0.0"; propertyTaxRate := "-0" |} in
  let r := @getTrueCostsOfHome _ JS inputs in
  B64.is_zero (monthlyPmi r) = true
  /\ B64.is_zero (monthlyInsurance r) = true
  /\ B64.is_zero (yearlyPropertyTax r) = true
  /\ B64.is_zero (monthlyPropertyTax r) = true.
Proof.
  intros inputs r.
  destruct (zero_rate_gives_zero_figure Ref.parseFloat Ref.pow inputs
              eq_refl) as (Hpmi & Hins & Htax).
  split; [apply Hpmi; reflexivity|].
  split; [apply Hins; reflexivity|].
  apply Htax; reflexivity.
Defined.

(** ** The checks of the form's schema *)

Section SchemaChecks.
Import B64.
Variable parseFloat' : string -> float.

(** X9: a text that passes the two checks of [interestRate] parses to a
    positive finite number: not NaN, not zero, not an infinity.  The
    zero rate at which [getMonthlyMortgage] returns NaN is therefore not
    a value the schema accepts. *)
Theorem accepted_interestRate_is_positive_and_finite (val : string) :
  interestRate_refine_positive parseFloat' val = true ->
  interestRate_refine_max parseFloat' val = true ->
  exists m e, parseFloat' val = S754_finite false m e.
Proof.
  unfold interestRate_refine_positive, interestRate_refine_max.
  destruct (parseFloat' val) as [s | [|] | | [|] m e];
    intros Hpos Hmax; try discriminate Hpos; try discriminate Hmax.
  exists m, e. reflexivity.
Qed.

(** X10: the check of [pmiRate], [insuranceRate] and [propertyTaxRate]
    accepts a text exactly when it parses to a zero (of either sign), to
    a positive finite number or to [+Infinity]: these fields have no
    upper bound.  Its [isNaN] test is implied by the comparison. *)
Theorem nonnegative_rate_check_accepts (val : string) :
  (rate_refine_nonnegative parseFloat' val = true
   <-> (is_zero (parseFloat' val) = true
        \/ parseFloat' val = Infinity
        \/ exists m e, parseFloat' val = S754_finite false m e))
  /\ rate_refine_nonnegative parseFloat' val
     = leb (of_Z 0) (parseFloat' val).
Proof.
  unfold rate_refine_nonnegative.
  destruct (parseFloat' val) as [s | [|] | | [|] m e]; split;
    try reflexivity; split;
    try (intros E; discriminate E);
    try (intros [E | [E | (m' & e' & E)]]; discriminate E).
  - intros _. left. reflexivity.
  - intros _. reflexivity.
  - intros _. right. left. reflexivity.
  - intros _. reflexivity.
  - intros _. right. right. exists m, e. reflexivity.
  - intros _. reflexivity.
Qed.

End SchemaChecks.

Lemma accepted_interestRate_is_positive_and_finite_witness :
  exists m e, Ref.parseFloat "4.5" = S754_finite false m e.
Proof.
  apply (accepted_interestRate_is_positive_and_finite Ref.parseFloat "4.5");
    reflexivity.
Defined.

(** ** Exact arithmetic: the breakdown as a whole *)

Section ExactBreakdown.
Local Open Scope R_scope.
Variable parseFloat' : string -> R.







End ExactBreakdown.





